(** * Assets/export_model.py: the export script

    The script is three statements: it imports [YOLO] from the third-party
    package [ultralytics], builds a model object from the weight file
    ['yolov8n.pt'] and calls the model's [export] method once.

    Everything the script does is a call into that package, so the package
    is a parameter of the development: an arbitrary implementation of the
    three entry points the script uses, acting on an arbitrary world (file
    system, network, package cache).  Each entry point may return or raise,
    as any Python call may.  The script itself is embedded statement by
    statement in a state-and-exception monad that also records which calls
    were made, and the statements below are about that record. *)

From Stdlib Require Import String List Bool Lia.
Import ListNotations.
Local Open Scope string_scope.

(** ** Python values and exceptions *)

(** The values that appear in the script as arguments or results. *)
Inductive PyVal : Type :=
| PyStr (s : string)
| PyBool (b : bool)
| PyNone.

(** Keyword arguments of a call, in the order they are written. *)
Definition Kwargs : Type := list (string * PyVal).

(** A raised exception: its class name and its message. *)
Record PyExc : Type := mkExc { exc_type : string; exc_msg : string }.

(** What the process is started with.  The script reads none of it. *)
Record ProcInput : Type := mkInput {
  argv : list string;
  environ : list (string * string);
  stdin : string
}.

Section Script.

(** The state outside the script, and the package's model objects. *)
Variables World Model : Type.

(** A call either raises or returns, and leaves a world behind. *)
Definition Outcome (A : Type) : Type := (PyExc + A) * World.

(** The entry points of [ultralytics] that the script reaches.
    [from_import m n] is the effect of [from m import n]; [YOLO] is the
    object the name is bound to afterwards, called with one positional
    argument; [export] is the method of the model object, called with
    keyword arguments only. *)
Record Package : Type := mkPackage {
  from_import : string -> string -> World -> Outcome unit;
  YOLO : string -> World -> Outcome Model;
  export : Model -> Kwargs -> World -> Outcome PyVal
}.

(** The calls a run makes, as an observer of the package sees them. *)
Inductive Call : Type :=
| CallImport (module name : string)
| CallYOLO (weights : string)
| CallExport (self : Model) (kw : Kwargs).

(** A run in progress: the world and the calls made so far, oldest first. *)
Record Run : Type := mkRun { world : World; calls : list Call }.

(** ** The monad of script statements *)

Definition Py (A : Type) : Type := Run -> (PyExc + A) * Run.

Definition ret {A} (a : A) : Py A := fun r => (inr a, r).

(** Sequencing: an exception of the first statement skips the rest. *)
Definition bind {A B} (c : Py A) (k : A -> Py B) : Py B :=
  fun r =>
    match c r with
    | (inl e, r') => (inl e, r')
    | (inr a, r') => k a r'
    end.

(** Making a call: it is recorded, then the package runs on the world. *)
Definition invoke {A} (c : Call) (f : World -> Outcome A) : Py A :=
  fun r =>
    let (res, w') := f (world r) in
    (res, {| world := w'; calls := calls r ++ [c] |}).

Variable pkg : Package.

Definition py_from_import (module name : string) : Py unit :=
  invoke (CallImport module name) (from_import pkg module name).

Definition call_YOLO (weights : string) : Py Model :=
  invoke (CallYOLO weights) (YOLO pkg weights).

Definition call_export (self : Model) (kw : Kwargs) : Py PyVal :=
  invoke (CallExport self kw) (export pkg self kw).

End Script.

Arguments ret {World Model A} a.
Arguments bind {World Model A B} c k.
Arguments invoke {World Model A} c f.
Arguments CallImport {Model} module name.
Arguments CallYOLO {Model} weights.
Arguments CallExport {Model} self kw.
Arguments mkRun {World Model} world calls.
Arguments world {World Model} r.
Arguments calls {World Model} r.
Arguments mkPackage {World Model} from_import YOLO export.
Arguments from_import {World Model} p _ _ _.
Arguments YOLO {World Model} p _ _.
Arguments export {World Model} p _ _ _.
Arguments py_from_import {World Model} pkg module name.
Arguments call_YOLO {World Model} pkg weights.
Arguments call_export {World Model} pkg self kw.

Declare Scope py_scope.
Delimit Scope py_scope with py.
Notation "x <- c ;; k" := (bind c (fun x => k))
  (at level 61, c at next level, right associativity) : py_scope.
Notation "c ;;; k" := (bind c (fun _ => k))
  (at level 61, right associativity) : py_scope.

(** ** The script

<<
from ultralytics import YOLO
model = YOLO('yolov8n.pt')
model.export(format='onnx', dynamic=True, simplify=True)
>>
    The value [export] returns is discarded. *)
Definition export_model {World Model} (pkg : Package World Model)
    (inp : ProcInput) : Py World Model unit :=
  (py_from_import pkg "ultralytics" "YOLO" ;;;
   model <- call_YOLO pkg "yolov8n.pt" ;;
   call_export pkg model
     [("format", PyStr "onnx"); ("dynamic", PyBool true);
      ("simplify", PyBool true)] ;;;
   ret tt)%py.

(** A run of the script from a world in which nothing has been called. *)
Definition run_script {World Model} (pkg : Package World Model)
    (inp : ProcInput) (w : World) : (PyExc + unit) * Run World Model :=
  export_model pkg inp (mkRun w []).

(** The calls of a finished run. *)
Definition trace {World Model} (pkg : Package World Model)
    (inp : ProcInput) (w : World) : list (Call Model) :=
  calls (snd (run_script pkg inp w)).

(** ** Observations on a trace *)

(** The [export] invocations of a trace: receiver and keyword arguments. *)
Fixpoint export_calls {Model} (t : list (Call Model)) : list (Model * Kwargs) :=
  match t with
  | [] => []
  | CallExport m kw :: t' => (m, kw) :: export_calls t'
  | _ :: t' => export_calls t'
  end.

(** The weight files [YOLO] was called with. *)
Fixpoint yolo_calls {Model} (t : list (Call Model)) : list string :=
  match t with
  | [] => []
  | CallYOLO s :: t' => s :: yolo_calls t'
  | _ :: t' => yolo_calls t'
  end.

(** [format='onnx', dynamic=True, simplify=True] *)
Definition onnx_dynamic_simplify : Kwargs :=
  [("format", PyStr "onnx"); ("dynamic", PyBool true);
   ("simplify", PyBool true)].

(** Looking a keyword up, as the callee does. *)
Fixpoint kwarg (k : string) (kw : Kwargs) : option PyVal :=
  match kw with
  | [] => None
  | (k', v) :: kw' => if String.eqb k k' then Some v else kwarg k kw'
  end.

(** The records of the script's first two calls. *)
Definition import_call {Model} : Call Model := CallImport "ultralytics" "YOLO".
Definition load_call {Model} : Call Model := CallYOLO "yolov8n.pt".

(** A trace performs the fixed export when the model was loaded from
    ['yolov8n.pt'] and [export] was invoked exactly once, with the three
    constant keyword arguments. *)
Definition performs_fixed_export {Model} (t : list (Call Model)) : Prop :=
  yolo_calls t = ["yolov8n.pt"] /\
  exists m, export_calls t = [(m, onnx_dynamic_simplify)].

(** ** A small stand-in for the package

    Used to run the script on concrete worlds.  The world says whether the
    weight file is on disk, whether the network is reachable, and which
    files have been written; a model object is the name of the weight file
    it was built from. *)
Record Disk : Type := mkDisk {
  weights_on_disk : bool;
  online : bool;
  written : list string
}.

Definition stub_from_import (module name : string) (w : Disk) : Outcome Disk unit :=
  if String.eqb module "ultralytics" && String.eqb name "YOLO"
  then (inr tt, w)
  else (inl (mkExc "ImportError" name), w).

(** Loads the weights, downloading them first when they are missing. *)
Definition stub_YOLO (weights : string) (w : Disk) : Outcome Disk string :=
  if weights_on_disk w then (inr weights, w)
  else if online w
       then (inr weights, mkDisk true true (written w))
       else (inl (mkExc "ConnectionError" weights), w).

Definition stub_export (self : string) (kw : Kwargs) (w : Disk) : Outcome Disk PyVal :=
  match kwarg "format" kw with
  | Some (PyStr fmt) =>
      let out := self ++ "." ++ fmt in
      (inr (PyStr out), mkDisk (weights_on_disk w) (online w) (written w ++ [out]))
  | _ => (inl (mkExc "ValueError" "format"), w)
  end.

Definition stub_ultralytics : Package Disk string :=
  mkPackage stub_from_import stub_YOLO stub_export.

(** No command-line arguments, empty environment, empty standard input. *)
Definition bare_input : ProcInput := mkInput ["export_model.py"] [] "".

(** The weights are missing and the network is down. *)
Definition offline_disk : Disk := mkDisk false false [].

(** The weights are already on disk. *)
Definition cached_disk : Disk := mkDisk true false [].

(** The weights are missing and the network is up. *)
Definition online_disk : Disk := mkDisk false true [].

(** An [export] that writes its output file and then raises, as a failure
    late in the export would. *)
Definition stub_export_late_failure (self : string) (kw : Kwargs) (w : Disk)
    : Outcome Disk PyVal :=
  match stub_export self kw w with
  | (inr _, w') => (inl (mkExc "RuntimeError" "simplify"), w')
  | failed => failed
  end.

Definition stub_ultralytics_late_failure : Package Disk string :=
  mkPackage stub_from_import stub_YOLO stub_export_late_failure.

(** ** Runs of the script *)

Section Runs.

Context {World Model : Type} (pkg : Package World Model).

(** The run, statement by statement: each call happens in the world the
    previous one left, and the first exception ends the run. *)
Lemma run_script_eq (inp : ProcInput) (w : World) :
  run_script pkg inp w =
  match from_import pkg "ultralytics" "YOLO" w with
  | (inl e, w1) => (inl e, mkRun w1 [import_call])
  | (inr _, w1) =>
      match YOLO pkg "yolov8n.pt" w1 with
      | (inl e, w2) => (inl e, mkRun w2 [import_call; load_call])
      | (inr m, w2) =>
          let t := [import_call; load_call; CallExport m onnx_dynamic_simplify] in
          match export pkg m onnx_dynamic_simplify w2 with
          | (inl e, w3) => (inl e, mkRun w3 t)
          | (inr _, w3) => (inr tt, mkRun w3 t)
          end
      end
  end.
Proof.
  unfold run_script, export_model, bind, py_from_import, call_YOLO,
    call_export, invoke, ret, onnx_dynamic_simplify; cbn [world calls app].
  destruct (from_import pkg "ultralytics" "YOLO" w) as [[e | u] w1];
    [reflexivity |]; cbn [world calls app].
  destruct (YOLO pkg "yolov8n.pt" w1) as [[e | m] w2];
    [reflexivity |]; cbn [world calls app].
  destruct (export pkg m _ w2) as [[e | v] w3]; reflexivity.
Qed.

Lemma trace_eq (inp : ProcInput) (w : World) :
  trace pkg inp w =
  match from_import pkg "ultralytics" "YOLO" w with
  | (inl _, _) => [import_call]
  | (inr _, w1) =>
      match YOLO pkg "yolov8n.pt" w1 with
      | (inl _, _) => [import_call; load_call]
      | (inr m, _) => [import_call; load_call; CallExport m onnx_dynamic_simplify]
      end
  end.
Proof.
  unfold trace. rewrite run_script_eq.
  destruct (from_import pkg "ultralytics" "YOLO" w) as [[e | u] w1];
    [reflexivity |].
  destruct (YOLO pkg "yolov8n.pt" w1) as [[e | m] w2]; [reflexivity |].
  cbv zeta.
  destruct (export pkg m onnx_dynamic_simplify w2) as [[e | v] w3];
    reflexivity.
Qed.

(** A trace is one of three call sequences. *)
Lemma trace_shape (inp : ProcInput) (w : World) :
  trace pkg inp w = [import_call] \/
  trace pkg inp w = [import_call; load_call] \/
  exists m,
    trace pkg inp w = [import_call; load_call; CallExport m onnx_dynamic_simplify].
Proof.
  rewrite trace_eq.
  destruct (from_import pkg "ultralytics" "YOLO" w) as [[e | u] w1];
    [now left |].
  destruct (YOLO pkg "yolov8n.pt" w1) as [[e | m] w2];
    [now right; left | right; right; now exists m].
Qed.

(** The script is the same computation whatever the process is given. *)
Lemma export_model_ignores_input (inp inp' : ProcInput) :
  export_model pkg inp' = export_model pkg inp.
Proof. reflexivity. Qed.

End Runs.

(** ** The fixed export *)

(** C10, as the script has it.  Whatever the package does and whatever the
    process is started with: the script reads no input; [YOLO] is only ever
    called with ['yolov8n.pt'] and [export] only ever with [format='onnx',
    dynamic=True, simplify=True], at most once in a run; when the import
    and the load both return, the run makes exactly the three calls import,
    load, export, the export being on the model the load returned; and
    when the import or the load raises, the run ends there and [export] is
    not invoked. *)
Theorem export_model_fixed_call_sequence
    {World Model : Type} (pkg : Package World Model)
    (inp : ProcInput) (w : World) :
  (forall inp', export_model pkg inp' = export_model pkg inp) /\
  (forall s, In (CallYOLO s) (trace pkg inp w) -> s = "yolov8n.pt") /\
  (forall m kw, In (CallExport m kw) (trace pkg inp w) ->
                kw = onnx_dynamic_simplify) /\
  length (export_calls (trace pkg inp w)) <= 1 /\
  (forall u w1 m w2,
      from_import pkg "ultralytics" "YOLO" w = (inr u, w1) ->
      YOLO pkg "yolov8n.pt" w1 = (inr m, w2) ->
      trace pkg inp w =
        [import_call; load_call; CallExport m onnx_dynamic_simplify] /\
      performs_fixed_export (trace pkg inp w)) /\
  (forall e w1,
      from_import pkg "ultralytics" "YOLO" w = (inl e, w1) ->
      trace pkg inp w = [import_call] /\
      export_calls (trace pkg inp w) = []) /\
  (forall u w1 e w2,
      from_import pkg "ultralytics" "YOLO" w = (inr u, w1) ->
      YOLO pkg "yolov8n.pt" w1 = (inl e, w2) ->
      trace pkg inp w = [import_call; load_call] /\
      export_calls (trace pkg inp w) = []).
Proof.
  pose proof (trace_shape pkg inp w) as Hshape.
  pose proof (trace_eq pkg inp w) as Heq.
  split; [intros inp'; apply export_model_ignores_input |].
  split; [| split; [| split; [| split; [| split]]]].
  - intros s Hin.
    destruct Hshape as [E | [E | [m E]]]; rewrite E in Hin; simpl in Hin;
      repeat (destruct Hin as [Hin | Hin]; [inversion Hin; reflexivity || discriminate |]);
      contradiction.
  - intros m kw Hin.
    destruct Hshape as [E | [E | [m' E]]]; rewrite E in Hin; simpl in Hin;
      repeat (destruct Hin as [Hin | Hin]; [inversion Hin; reflexivity || discriminate |]);
      contradiction.
  - destruct Hshape as [E | [E | [m E]]]; rewrite E; simpl; lia.
  - intros u w1 m w2 Himport Hload.
    rewrite Himport, Hload in Heq. rewrite Heq.
    split; [reflexivity |]. split; [reflexivity |]. exists m. reflexivity.
  - intros e w1 Himport.
    rewrite Himport in Heq. rewrite Heq. split; reflexivity.
  - intros u w1 e w2 Himport Hload.
    rewrite Himport, Hload in Heq. rewrite Heq. split; reflexivity.
Qed.

(** C10, the failing run: with the weights missing and the network down the
    load raises, the run ends after two calls and [export] is not invoked,
    so this run does not perform the fixed export. *)
Lemma export_model_offline_no_export :
  fst (run_script stub_ultralytics bare_input offline_disk)
    = inl (mkExc "ConnectionError" "yolov8n.pt") /\
  trace stub_ultralytics bare_input offline_disk = [import_call; load_call] /\
  export_calls (trace stub_ultralytics bare_input offline_disk) = [] /\
  ~ performs_fixed_export (trace stub_ultralytics bare_input offline_disk).
Proof.
  split; [reflexivity |]. split; [reflexivity |]. split; [reflexivity |].
  intros [_ [m Hm]]. vm_compute in Hm. discriminate Hm.
Qed.

(** C10, a run that goes through: with the weights on disk the import and
    the load return, and the run is import, load, one export. *)
Lemma export_model_cached_exports_once :
  from_import stub_ultralytics "ultralytics" "YOLO" cached_disk
    = (inr tt, cached_disk) /\
  YOLO stub_ultralytics "yolov8n.pt" cached_disk
    = (inr "yolov8n.pt", cached_disk) /\
  trace stub_ultralytics bare_input cached_disk
    = [import_call; load_call; CallExport "yolov8n.pt" onnx_dynamic_simplify] /\
  performs_fixed_export (trace stub_ultralytics bare_input cached_disk).
Proof.
  split; [reflexivity |]. split; [reflexivity |].
  apply (proj1 (proj2 (proj2 (proj2 (proj2
           (export_model_fixed_call_sequence
              stub_ultralytics bare_input cached_disk)))))
           tt cached_disk "yolov8n.pt" cached_disk);
    reflexivity.
Defined.

(** ** Outcome and final world of a run *)

(** The script handles no exception.  A run raises [e] exactly when the
    import raises [e], or the import returns and the load raises [e], or
    both return and the export raises [e]: the exception is the package's
    own, unchanged.  A run returns exactly when all three calls return,
    whatever value the export gave back. *)
Theorem export_model_outcome
    {World Model : Type} (pkg : Package World Model)
    (inp : ProcInput) (w : World) :
  (forall e,
      fst (run_script pkg inp w) = inl e <->
      (exists w1, from_import pkg "ultralytics" "YOLO" w = (inl e, w1)) \/
      (exists u w1 w2,
          from_import pkg "ultralytics" "YOLO" w = (inr u, w1) /\
          YOLO pkg "yolov8n.pt" w1 = (inl e, w2)) \/
      (exists u w1 m w2 w3,
          from_import pkg "ultralytics" "YOLO" w = (inr u, w1) /\
          YOLO pkg "yolov8n.pt" w1 = (inr m, w2) /\
          export pkg m onnx_dynamic_simplify w2 = (inl e, w3))) /\
  (fst (run_script pkg inp w) = inr tt <->
   exists u w1 m w2 v w3,
     from_import pkg "ultralytics" "YOLO" w = (inr u, w1) /\
     YOLO pkg "yolov8n.pt" w1 = (inr m, w2) /\
     export pkg m onnx_dynamic_simplify w2 = (inr v, w3)).
Proof.
  split; [intros e; split | split].
  - (* a raised exception comes from one of the three calls *)
    intros H. rewrite run_script_eq in H.
    destruct (from_import pkg "ultralytics" "YOLO" w) as [[e0 | u] w1] eqn:Himport.
    { injection H as <-. left. exists w1. reflexivity. }
    destruct (YOLO pkg "yolov8n.pt" w1) as [[e1 | m] w2] eqn:Hload.
    { injection H as <-. right; left. exists u, w1, w2. split; [reflexivity | exact Hload]. }
    cbv zeta in H.
    destruct (export pkg m onnx_dynamic_simplify w2) as [[e2 | v] w3] eqn:Hexport.
    { injection H as <-. right; right. exists u, w1, m, w2, w3.
      split; [reflexivity | split; [exact Hload | exact Hexport]]. }
    discriminate H.
  - (* an exception of any of the three calls ends the run *)
    intros [[w1 H] | [(u & w1 & w2 & H & H') | (u & w1 & m & w2 & w3 & H & H' & H'')]];
      rewrite run_script_eq, H; [reflexivity | |]; rewrite H'; [reflexivity |].
    cbv zeta. rewrite H''. reflexivity.
  - (* a run that returns made all three calls, and all returned *)
    intros H. rewrite run_script_eq in H.
    destruct (from_import pkg "ultralytics" "YOLO" w) as [[e0 | u] w1] eqn:Himport;
      [discriminate H |].
    destruct (YOLO pkg "yolov8n.pt" w1) as [[e1 | m] w2] eqn:Hload;
      [discriminate H |].
    cbv zeta in H.
    destruct (export pkg m onnx_dynamic_simplify w2) as [[e2 | v] w3] eqn:Hexport;
      [discriminate H |].
    exists u, w1, m, w2, v, w3.
    split; [reflexivity | split; [exact Hload | exact Hexport]].
  - intros (u & w1 & m & w2 & v & w3 & H & H' & H'').
    rewrite run_script_eq, H, H'. cbv zeta. rewrite H''. reflexivity.
Qed.

(** The script touches the world only through its calls, and undoes
    nothing.  Each call runs in the world the previous one left; the run
    ends in the world left by the last call it made, whether that call
    returned or raised: the import's when the import raised, the load's
    when the load raised, and otherwise the export's. *)
Theorem export_model_final_world
    {World Model : Type} (pkg : Package World Model)
    (inp : ProcInput) (w : World) :
  (forall e w1,
      from_import pkg "ultralytics" "YOLO" w = (inl e, w1) ->
      world (snd (run_script pkg inp w)) = w1) /\
  (forall u w1 e w2,
      from_import pkg "ultralytics" "YOLO" w = (inr u, w1) ->
      YOLO pkg "yolov8n.pt" w1 = (inl e, w2) ->
      world (snd (run_script pkg inp w)) = w2) /\
  (forall u w1 m w2 r w3,
      from_import pkg "ultralytics" "YOLO" w = (inr u, w1) ->
      YOLO pkg "yolov8n.pt" w1 = (inr m, w2) ->
      export pkg m onnx_dynamic_simplify w2 = (r, w3) ->
      world (snd (run_script pkg inp w)) = w3).
Proof.
  split; [| split].
  - intros e w1 Himport. rewrite run_script_eq, Himport. reflexivity.
  - intros u w1 e w2 Himport Hload.
    rewrite run_script_eq, Himport, Hload. reflexivity.
  - intros u w1 m w2 r w3 Himport Hload Hexport.
    rewrite run_script_eq, Himport, Hload. cbv zeta. rewrite Hexport.
    destruct r; reflexivity.
Qed.

(** A run in which the load downloads the weights and the export writes its
    file and then raises: the run fails, and the world it leaves has both
    the downloaded weights and the written file. *)
Lemma export_model_late_failure_keeps_file :
  from_import stub_ultralytics_late_failure "ultralytics" "YOLO" online_disk
    = (inr tt, online_disk) /\
  YOLO stub_ultralytics_late_failure "yolov8n.pt" online_disk
    = (inr "yolov8n.pt", mkDisk true true []) /\
  export stub_ultralytics_late_failure "yolov8n.pt" onnx_dynamic_simplify
      (mkDisk true true [])
    = (inl (mkExc "RuntimeError" "simplify"),
       mkDisk true true ["yolov8n.pt.onnx"]) /\
  world (snd (run_script stub_ultralytics_late_failure bare_input online_disk))
    = mkDisk true true ["yolov8n.pt.onnx"].
Proof.
  split; [reflexivity |]. split; [reflexivity |]. split; [reflexivity |].
  apply (proj2 (proj2 (export_model_final_world
                         stub_ultralytics_late_failure bare_input online_disk))
           tt online_disk "yolov8n.pt" (mkDisk true true [])
           (inl (mkExc "RuntimeError" "simplify")));
    reflexivity.
Defined.
